(** * Spacing conversion of chakra-to-tailwind: model and properties

    Shallow embedding of [src/mappings/spacing.ts] ([propertyPrefixMap],
    [convertSpacing]) and of the scale module it imports ([spacingScale],
    [remToScaleMap], [pxToScaleMap], [removeSpaces], [normalizeToRem],
    [normalizeSpacing]).

    JavaScript strings are modelled as [string]: a sequence of code units,
    here restricted to code units below 256.  JavaScript numbers are modelled
    as IEEE 754 binary64 values, [spec_float] with [prec = 53] and
    [emax = 1024], with the language's own operations on them. *)

From Stdlib Require Import ZArith List String Ascii Bool Lia.
From Stdlib Require Import Floats.SpecFloat Numbers.DecimalString.
Import ListNotations.

Open Scope string_scope.

(** ** JavaScript strings *)

Module JsString.

(** [WhiteSpace] and [LineTerminator] code units below 256: TAB, LF, VT,
    FF, CR, SP and NBSP.  This is what [\s] matches and what
    [parseFloat] and [parseInt] skip at the start of their argument. *)
Definition isWhiteSpace (c : ascii) : bool :=
  match c with
  | "009" | "010" | "011" | "012" | "013" | " " | "160" => true
  | _ => false
  end%char.

(** [s.startsWith(p)] *)
Definition startsWith (s p : string) : bool := prefix p s.

(** [s.endsWith(p)]: some tail of [s] is [p]. *)
Fixpoint endsWith (s p : string) : bool :=
  (s =? p) ||
  match s with
  | EmptyString => false
  | String _ r => endsWith r p
  end.

(** [s.includes(p)]: [p] is a prefix of some tail of [s]. *)
Fixpoint includes (s p : string) : bool :=
  prefix p s ||
  match s with
  | EmptyString => false
  | String _ r => includes r p
  end.

Fixpoint filter (f : ascii -> bool) (s : string) : string :=
  match s with
  | EmptyString => EmptyString
  | String c r => if f c then String c (filter f r) else filter f r
  end.

(** [s.replace(/\s+/g, e)] with [e] the empty string *)
Definition stripWhiteSpace (s : string) : string :=
  filter (fun c => negb (isWhiteSpace c)) s.

(** [TrimString(s, start)] *)
Fixpoint trimStart (s : string) : string :=
  match s with
  | EmptyString => EmptyString
  | String c r => if isWhiteSpace c then trimStart r else s
  end.

(** [xs.join(sep)] *)
Definition join (sep : string) (xs : list string) : string := concat sep xs.

(** A string is truthy when it is not empty. *)
Definition truthy (s : string) : bool := negb (s =? EmptyString).

(** Every code unit of [s] satisfies [f]. *)
Fixpoint all (f : ascii -> bool) (s : string) : bool :=
  match s with
  | EmptyString => true
  | String c r => f c && all f r
  end.

Definition noWhiteSpace (s : string) : bool :=
  all (fun c => negb (isWhiteSpace c)) s.

Fixpoint zeros (n : nat) : string :=
  match n with
  | O => EmptyString
  | S k => String "0" (zeros k)
  end.

End JsString.

(** ** JavaScript numbers *)

Module JsNumber.
Import JsString.

Definition prec : Z := 53.
Definition emax : Z := 1024.

(** A number is a [spec_float] for which [valid_binary prec emax] holds;
    the operations below keep to such values.  What is proved here for
    every [spec_float] holds for every number. *)
Definition number : Type := spec_float.

Definition NaN : number := S754_nan.

(** [Number.isNaN] *)
Definition isNaN (x : number) : bool :=
  match x with
  | S754_nan => true
  | _ => false
  end.

(** The number value of the real [(-1)^neg * m * 10^e], for [0 <= m]:
    round to nearest, ties to even. *)
Definition ofDecimal (neg : bool) (m e : Z) : number :=
  match m with
  | Zpos _ =>
      if (0 <=? e)%Z
      then binary_normalize prec emax (cond_Zopp neg (m * 10 ^ e)) 0 neg
      else
        let '(q, e', l) :=
          SFdiv_core_binary prec emax m 0 (10 ^ (- e)) 0 in
        binary_round_aux prec emax neg q e' l
  | _ => S754_zero neg
  end.

(** A numeric literal of the source that is an integer. *)
Definition ofZ (z : Z) : number :=
  ofDecimal (z <? 0)%Z (Z.abs z) 0.

Definition mul (x y : number) : number := SFmul prec emax x y.
Definition div (x y : number) : number := SFdiv prec emax x y.
(** [Math.abs] *)
Definition abs (x : number) : number := SFabs x.
(** [x < y] *)
Definition ltb (x y : number) : bool := SFltb x y.
(** [x === y] on numbers *)
Definition strictEq (x y : number) : bool := SFeqb x y.
(** [SameValueZero], the key comparison of [Map] *)
Definition sameValueZero (x y : number) : bool :=
  (isNaN x && isNaN y) || SFeqb x y.

(** *** Parsing *)

Definition isDigit (c : ascii) : bool :=
  let n := N_of_ascii c in (48 <=? n)%N && (n <=? 57)%N.

Definition isHexDigit (c : ascii) : bool :=
  let n := N_of_ascii c in
  isDigit c || ((65 <=? n)%N && (n <=? 70)%N)
            || ((97 <=? n)%N && (n <=? 102)%N).

Definition hexVal (c : ascii) : Z :=
  let n := Z.of_N (N_of_ascii c) in
  if isDigit c then n - 48
  else if (n <=? 70)%Z then n - 55 else n - 87.

Fixpoint span (f : ascii -> bool) (s : string) : string * string :=
  match s with
  | EmptyString => (EmptyString, EmptyString)
  | String c r =>
      if f c then let '(d, t) := span f r in (String c d, t)
      else (EmptyString, s)
  end.

(** The integer written by the digits [d] in radix [radix]. *)
Definition digitsValue (radix : Z) (d : string) : Z :=
  fold_left (fun acc c => radix * acc + hexVal c)%Z
            (list_ascii_of_string d) 0%Z.

Definition takeSign (s : string) : bool * string :=
  match s with
  | String c r =>
      if (c =? "-")%char then (true, r)
      else if (c =? "+")%char then (false, r)
      else (false, s)
  | EmptyString => (false, s)
  end.

(** [ExponentPart] at the head of [s], when there is one; its value. *)
Definition scanExponent (s : string) : Z :=
  match s with
  | String c r =>
      if ((c =? "e") || (c =? "E"))%char then
        let '(neg, r') := takeSign r in
        let '(d, _) := span isDigit r' in
        if d =? EmptyString then 0%Z
        else cond_Zopp neg (digitsValue 10 d)
      else 0%Z
  | EmptyString => 0%Z
  end.

(** The longest prefix that is a [StrDecimalLiteral], read as a sign,
    decimal digits and a power of ten. *)
Variant literal : Type :=
  | LitInfinity (neg : bool)
  | LitDecimal (neg : bool) (digits : string) (exp10 : Z).

Definition scanFloat (s : string) : option literal :=
  let '(neg, t) := takeSign (trimStart s) in
  if prefix "Infinity" t then Some (LitInfinity neg)
  else
    let '(ip, t2) := span isDigit t in
    let '(fp, t3) :=
      match t2 with
      | String c r =>
          if (c =? ".")%char then span isDigit r else (EmptyString, t2)
      | EmptyString => (EmptyString, t2)
      end in
    if (ip =? EmptyString) && (fp =? EmptyString) then None
    else Some (LitDecimal neg (ip ++ fp)
                          (scanExponent t3 - Z.of_nat (length fp))).

(** [Number.parseFloat].  A literal of more than 20 significant digits
    is rounded exactly, as V8 does. *)
Definition parseFloat (s : string) : number :=
  match scanFloat s with
  | None => NaN
  | Some (LitInfinity neg) => S754_infinity neg
  | Some (LitDecimal neg d e) => ofDecimal neg (digitsValue 10 d) e
  end.

(** [Number.parseInt] with no radix argument. *)
Definition parseInt (s : string) : number :=
  let '(neg, t) := takeSign (trimStart s) in
  let hex :=
    match t with
    | String c (String x r) =>
        if ((c =? "0") && ((x =? "x") || (x =? "X")))%char
        then Some r else None
    | _ => None
    end in
  match hex with
  | Some r =>
      let '(d, _) := span isHexDigit r in
      if d =? EmptyString then NaN else ofDecimal neg (digitsValue 16 d) 0
  | None =>
      let '(d, _) := span isDigit t in
      if d =? EmptyString then NaN else ofDecimal neg (digitsValue 10 d) 0
  end.

(** *** Printing: [Number::toString] in radix 10 *)

(** The value [m * 2^e] as a fraction. *)
Definition fraction (m : positive) (e : Z) : Z * Z :=
  if (0 <=? e)%Z then (Zpos m * 2 ^ e, 1)%Z else (Zpos m, 2 ^ (- e))%Z.

(** For [den <= num]: the least [n], from [n] upwards, with
    [num / den < 10^n]; [pw] is [den * 10^n]. *)
Fixpoint exponentUp (fuel : nat) (num pw n : Z) : Z :=
  match fuel with
  | O => n
  | S f =>
      if (num <? pw)%Z then n
      else exponentUp f num (pw * 10)%Z (n + 1)%Z
  end.

(** For [num < den]: the least [n], from [n] downwards, with
    [num / den < 10^n]; [sc] is [num * 10^(-n)]. *)
Fixpoint exponentDown (fuel : nat) (sc den n : Z) : Z :=
  match fuel with
  | O => n
  | S f =>
      if (sc * 10 <? den)%Z
      then exponentDown f (sc * 10)%Z den (n - 1)%Z
      else n
  end.

(** The [n] with [10^(n-1) <= num / den < 10^n].  For a binary64 value
    it lies between -323 and 309. *)
Definition decimalExponent (num den : Z) : Z :=
  if (num <? den)%Z then exponentDown 400 num den 0
  else exponentUp 400 num (den * 10)%Z 1.

(** [num / den / 10^q] as a fraction. *)
Definition scaled (num den q : Z) : Z * Z :=
  if (0 <=? q)%Z then (num, den * 10 ^ q)%Z
  else (num * 10 ^ (- q), den)%Z.

(** The [k]-digit decimals [s * 10^(n - k)] next to [x] on both sides;
    the one that reads back as [x], the closer one when both do. *)
Definition tryDigits (x : number) (num den n0 k : Z) : option (Z * Z) :=
  let '(a, b) := scaled num den (n0 - k) in
  let lo := (a / b)%Z in
  let r := (a mod b)%Z in
  let hi := (lo + 1)%Z in
  let okLo := SFeqb (ofDecimal false lo (n0 - k)) x in
  let okHi := SFeqb (ofDecimal false hi (n0 - k)) x in
  let hiPair :=
    if (hi =? 10 ^ k)%Z then (10 ^ (k - 1), n0 + 1)%Z else (hi, n0) in
  match okLo, okHi with
  | true, true =>
      Some match (2 * r ?= b)%Z with
           | Lt => (lo, n0)
           | Gt => hiPair
           | Eq => if Z.even lo then (lo, n0) else hiPair
           end
  | true, false => Some (lo, n0)
  | false, true => Some hiPair
  | false, false => None
  end.

(** The least [k] with such a decimal, and its [(s, n)].  A binary64
    value has one with [k <= 17]. *)
Fixpoint shortest (fuel : nat) (x : number) (num den n0 k : Z) : Z * Z :=
  match fuel with
  | O => (fst (scaled num den (n0 - k)) / snd (scaled num den (n0 - k)),
          n0)%Z
  | S f =>
      match tryDigits x num den n0 k with
      | Some r => r
      | None => shortest f x num den n0 (k + 1)
      end
  end.

Definition digitsOf (s : Z) : string :=
  NilZero.string_of_uint (N.to_uint (Z.to_N s)).

(** Steps 6 to 10 of [Number::toString]: [d] holds the [k] digits of
    [s]. *)
Definition render (d : string) (n : Z) : string :=
  let k := Z.of_nat (length d) in
  if ((k <=? n) && (n <=? 21))%Z then d ++ zeros (Z.to_nat (n - k))
  else if ((0 <? n) && (n <=? 21))%Z then
    substring 0 (Z.to_nat n) d ++ "." ++
    substring (Z.to_nat n) (Z.to_nat (k - n)) d
  else if ((-6 <? n) && (n <=? 0))%Z then
    "0." ++ zeros (Z.to_nat (- n)) ++ d
  else
    let e := (n - 1)%Z in
    let ex := (if (e <? 0)%Z then "-" else "+") ++ digitsOf (Z.abs e) in
    if (k =? 1)%Z then d ++ "e" ++ ex
    else substring 0 1 d ++ "." ++ substring 1 (Z.to_nat (k - 1)) d
         ++ "e" ++ ex.

(** [Number::toString]: the shortest decimal that reads back as [x], the
    closest to [x] among the shortest, as V8 prints it. *)
Definition toString (x : number) : string :=
  match x with
  | S754_nan => "NaN"
  | S754_zero _ => "0"
  | S754_infinity neg => if neg then "-Infinity" else "Infinity"
  | S754_finite neg m e =>
      let '(num, den) := fraction m e in
      let n0 := decimalExponent num den in
      let '(s, n) :=
        shortest 17 (S754_finite false m e) num den n0 1 in
      (if neg then "-" else EmptyString) ++ render (digitsOf s) n
  end.

End JsNumber.

(** ** The spacing scale and the value normalizer *)

Import JsString JsNumber.

(** [number | string], the scalars of a [SpacingValue]. *)
Variant scalar : Type :=
  | Num (n : number)
  | Str (s : string).

(** [SpacingValue].  An array holds scalars or [null]; an object is given
    by its entries, in the order [Object.entries] lists them. *)
Variant SpacingValue : Type :=
  | Scalar (v : scalar)
  | Sequence (vs : list (option scalar))
  | Keyed (entries : list (string * scalar)).

(** A [Map], as the list of its entries in insertion order. *)
Section JsMap.
Context {K V : Type}.
Variable keyEq : K -> K -> bool.

Fixpoint mapSet (m : list (K * V)) (k : K) (v : V) : list (K * V) :=
  match m with
  | [] => [(k, v)]
  | (k', v') :: r =>
      if keyEq k' k then (k', v) :: r else (k', v') :: mapSet r k v
  end.

Fixpoint mapGet (m : list (K * V)) (k : K) : option V :=
  match m with
  | [] => None
  | (k', v') :: r => if keyEq k' k then Some v' else mapGet r k
  end.
End JsMap.

(** [`${x}`] for a value that is a string or [undefined]. *)
Definition template (x : option string) : string :=
  match x with
  | Some s => s
  | None => "undefined"
  end.

(** The entries of [spacingScale], as written.  The two maps below are
    built by one [set] per entry on keys that are all different, so the
    order of the entries does not show in them. *)
Definition spacingScale : list (string * string) :=
  [ ("px", "1px");
    ("0", "0");
    ("0.5", "0.125rem");
    ("1", "0.25rem");
    ("1.5", "0.375rem");
    ("2", "0.5rem");
    ("2.5", "0.625rem");
    ("3", "0.75rem");
    ("3.5", "0.875rem");
    ("4", "1rem");
    ("5", "1.25rem");
    ("6", "1.5rem");
    ("7", "1.75rem");
    ("8", "2rem");
    ("9", "2.25rem");
    ("10", "2.5rem");
    ("12", "3rem");
    ("14", "3.5rem");
    ("16", "4rem");
    ("20", "5rem");
    ("24", "6rem");
    ("28", "7rem");
    ("32", "8rem");
    ("36", "9rem");
    ("40", "10rem");
    ("44", "11rem");
    ("48", "12rem");
    ("52", "13rem");
    ("56", "14rem");
    ("60", "15rem");
    ("64", "16rem");
    ("72", "18rem");
    ("80", "20rem");
    ("96", "24rem") ].

(** [remToScaleMap]: rem length to scale step. *)
Definition remToScaleMap : list (string * string) :=
  fold_left
    (fun m '(key, value) =>
       if endsWith value "rem" then mapSet String.eqb m value key else m)
    spacingScale [].

(** The pixel count of a scale length, when it has one. *)
Definition scalePx (value : string) : option number :=
  if endsWith value "px" then Some (parseInt value)
  else if endsWith value "rem" then Some (mul (parseFloat value) (ofZ 16))
  else if value =? "0" then Some (ofZ 0)
  else None.

(** [pxToScaleMap]: pixel count to scale step. *)
Definition pxToScaleMap : list (number * string) :=
  fold_left
    (fun m '(key, value) =>
       match scalePx value with
       | Some px => mapSet sameValueZero m px key
       | None => m
       end)
    spacingScale [].

(** [removeSpaces] *)
Definition removeSpaces (value : string) : string :=
  if includes value "calc" || includes value "clamp"
  then stripWhiteSpace value
  else value.

(** [normalizeToRem] *)
Definition normalizeToRem (value : string) : option string :=
  if endsWith value "px" then
    let px := parseFloat value in
    Some (toString (div px (ofZ 16)) ++ "rem")
  else if endsWith value "rem" then Some value
  else None.

(** The branch of [normalizeSpacing] for [typeof value === "number"]. *)
Definition normalizeNumber (value : number) : string :=
  if strictEq value (ofZ 0) then "0"
  else if ltb value (ofZ 0)
  then "[-" ++ toString (abs (mul value (ofZ 4))) ++ "px]"
  else toString value.

(** The rest of [normalizeSpacing], for a string [value]. *)
Definition normalizeText (value : string) : string :=
  let cleanValue := removeSpaces value in
  if (cleanValue =? "0") || (cleanValue =? "0px") || (cleanValue =? "0rem")
  then "0"
  else
    let fromRem :=
      match normalizeToRem cleanValue with
      | Some remValue =>
          if truthy remValue then
            match mapGet String.eqb remToScaleMap remValue with
            | Some scaleValue =>
                if truthy scaleValue then Some scaleValue else None
            | None => None
            end
          else None
      | None => None
      end in
    match fromRem with
    | Some scaleValue => scaleValue
    | None =>
        if endsWith cleanValue "px" then
          let px := parseInt cleanValue in
          let negative := "[-" ++ toString (abs px) ++ "px]" in
          match mapGet sameValueZero pxToScaleMap (abs px) with
          | Some scaleValue =>
              if truthy scaleValue
              then (if ltb px (ofZ 0) then negative else scaleValue)
              else (if ltb px (ofZ 0) then negative
                    else "[" ++ toString px ++ "px]")
          | None =>
              if ltb px (ofZ 0) then negative
              else "[" ++ toString px ++ "px]"
          end
        else "[" ++ cleanValue ++ "]"
    end.

(** [normalizeSpacing].  Its one recursive call passes a number, for
    which only the number branch can run: that call is [normalizeNumber]. *)
Definition normalizeSpacing (value : option scalar) : string :=
  match value with
  | None => EmptyString
  | Some (Num n) => normalizeNumber n
  | Some (Str s) =>
      if s =? "auto" then "auto"
      else if startsWith s "-" && negb (isNaN (parseFloat s))
      then normalizeNumber (parseFloat s)
      else normalizeText s
  end.

(** ** The class synthesizer *)

(** [propertyPrefixMap], as written. *)
Definition propertyPrefixMap : list (string * string) :=
  [ ("margin", "m");
    ("marginTop", "mt");
    ("marginRight", "mr");
    ("marginBottom", "mb");
    ("marginLeft", "ml");
    ("marginX", "mx");
    ("marginY", "my");
    ("marginInline", "mx");
    ("marginInlineStart", "ms");
    ("marginInlineEnd", "me");
    ("marginBlock", "my");
    ("marginBlockStart", "mt");
    ("marginBlockEnd", "mb");
    ("m", "m");
    ("mt", "mt");
    ("mr", "mr");
    ("mb", "mb");
    ("ml", "ml");
    ("mx", "mx");
    ("my", "my");
    ("ms", "ms");
    ("me", "me");
    ("padding", "p");
    ("paddingTop", "pt");
    ("paddingRight", "pr");
    ("paddingBottom", "pb");
    ("paddingLeft", "pl");
    ("paddingX", "px");
    ("paddingY", "py");
    ("paddingInline", "px");
    ("paddingInlineStart", "ps");
    ("paddingInlineEnd", "pe");
    ("paddingBlock", "py");
    ("paddingBlockStart", "pt");
    ("paddingBlockEnd", "pb");
    ("p", "p");
    ("pt", "pt");
    ("pr", "pr");
    ("pb", "pb");
    ("pl", "pl");
    ("px", "px");
    ("py", "py");
    ("ps", "ps");
    ("pe", "pe");
    ("gap", "gap");
    ("rowGap", "gap-y");
    ("columnGap", "gap-x");
    ("space", "space") ].

(** The names every object inherits from [Object.prototype].  Reading one
    of them off [propertyPrefixMap] gives a function or an object, not
    [undefined]; such a read is outside this model. *)
Definition inheritedNames : list string :=
  [ "constructor"; "hasOwnProperty"; "isPrototypeOf";
    "propertyIsEnumerable"; "toLocaleString"; "toString"; "valueOf";
    "__proto__"; "__defineGetter__"; "__defineSetter__";
    "__lookupGetter__"; "__lookupSetter__" ].

(** [propertyPrefixMap[property]]: the prefix, or [undefined]. *)
Definition lookupPrefix (property : string) : option string :=
  mapGet String.eqb propertyPrefixMap property.

Definition breakpoints : list string :=
  [EmptyString; "sm"; "md"; "lg"; "xl"; "2xl"].

(** The class of one responsive entry: [null] when the value normalizes
    to the empty string. *)
Definition classOf (bp : string) (prefix : option string)
    (v : option scalar) : option string :=
  let normalizedValue := normalizeSpacing v in
  if truthy normalizedValue
  then Some (bp ++ template prefix ++ "-" ++ normalizedValue)
  else None.

(** The callback of [value.map] in the array branch, run over the array
    from left to right; [validIndex] is the counter the callback shares. *)
Fixpoint mapSequence (prefix : option string) (validIndex : nat)
    (vs : list (option scalar)) : list (option string) :=
  match vs with
  | [] => []
  | None :: r => None :: mapSequence prefix validIndex r
  | Some v :: r =>
      let breakpoint :=
        if Nat.eqb validIndex 0 then EmptyString
        else template (nth_error breakpoints validIndex) ++ ":" in
      classOf breakpoint prefix (Some v)
        :: mapSequence prefix (S validIndex) r
  end.

(** The callback of [Object.entries(value).map] in the object branch. *)
Definition mapEntry (prefix : option string)
    (entry : string * scalar) : option string :=
  let '(breakpoint, v) := entry in
  let bp :=
    if breakpoint =? "base" then EmptyString else breakpoint ++ ":" in
  classOf bp prefix (Some v).

(** [.filter((item) => item !== null)] *)
Fixpoint dropNull (items : list (option string)) : list string :=
  match items with
  | [] => []
  | Some s :: r => s :: dropNull r
  | None :: r => dropNull r
  end.

(** The tokens of the array branch and of the object branch, before
    [.join(" ")]. *)
Definition sequenceTokens (prefix : option string)
    (vs : list (option scalar)) : list string :=
  dropNull (mapSequence prefix 0 vs).

Definition keyedTokens (prefix : option string)
    (entries : list (string * scalar)) : list string :=
  dropNull (map (mapEntry prefix) entries).

(** The body of [convertSpacing], once [prefix] is read off the map. *)
Definition convertSpacingWith (prefix : option string)
    (value : SpacingValue) : string :=
  match value with
  | Sequence vs => join " " (sequenceTokens prefix vs)
  | Keyed entries => join " " (keyedTokens prefix entries)
  | Scalar v =>
      let normalizedValue := normalizeSpacing (Some v) in
      if truthy normalizedValue
      then template prefix ++ "-" ++ normalizedValue
      else EmptyString
  end.

(** [convertSpacing] *)
Definition convertSpacing (property : string) (value : SpacingValue)
    : string :=
  convertSpacingWith (lookupPrefix property) value.

(** [convertSpacing] has no [throw] and calls nothing that throws on a
    value of its parameter types: a call always completes normally. *)
Variant completion : Type :=
  | Returns (s : string)
  | Throws (condition : string).

Definition convertSpacingCompletion (property : string)
    (value : SpacingValue) : completion :=
  Returns (convertSpacing property value).

(** ** Notions used to state the properties *)

(** The elements of an array that are not [null], in order. *)
Fixpoint nonNull (vs : list (option scalar)) : list scalar :=
  match vs with
  | [] => []
  | Some v :: r => v :: nonNull r
  | None :: r => nonNull r
  end.

(** What the array branch puts before the class of the element that
    finds the counter at [i]. *)
Definition ladderPrefix (i : nat) : string :=
  if Nat.eqb i 0 then EmptyString
  else template (nth_error breakpoints i) ++ ":".

(** The classes of the scalars [l], the first one at counter [i]. *)
Fixpoint tokensFrom (prefix : option string) (i : nat) (l : list scalar)
    : list string :=
  match l with
  | [] => []
  | v :: r =>
      (ladderPrefix i ++ template prefix ++ "-" ++ normalizeSpacing (Some v))
        :: tokensFrom prefix (S i) r
  end.



(** The pixel length that stands for a scale length. *)
Definition pxEquivalent (length : string) : string :=
  match scalePx length with
  | Some px => toString px ++ "px"
  | None => length
  end.

(** The steps of a scale other than the hairline step "px". *)
Definition numericSteps (scale : list (string * string)) : list string :=
  List.filter (fun step => negb (step =? "px")) (map fst scale).

(** The cases of the repository's test of [convertSpacing] that hold on
    the code: property, value, expected class string. *)
Definition passingTests : list (string * SpacingValue * string) :=
  let n k := Num (ofZ (Z.of_nat k)) in
  [ ("margin", Scalar (n 4), "m-4");
    ("padding", Scalar (n 2), "p-2");
    ("gap", Scalar (n 6), "gap-6");
    ("space", Scalar (n 8), "space-8");
    ("margin", Scalar (Str "16px"), "m-4");
    ("padding", Scalar (Str "8px"), "p-2");
    ("gap", Scalar (Str "24px"), "gap-6");
    ("space", Scalar (Str "32px"), "space-8");
    ("margin", Scalar (Str "15px"), "m-[15px]");
    ("padding", Scalar (Str "7px"), "p-[7px]");
    ("margin", Scalar (Str "1rem"), "m-4");
    ("padding", Scalar (Str "0.5rem"), "p-2");
    ("gap", Scalar (Str "1.5rem"), "gap-6");
    ("space", Scalar (Str "2rem"), "space-8");
    ("margin", Scalar (Str "0.45rem"), "m-[0.45rem]");
    ("padding", Scalar (Str "1.1rem"), "p-[1.1rem]");
    ("margin", Sequence [Some (n 2); Some (Str "16px"); Some (Str "1rem")],
     "m-2 sm:m-4 md:m-4");
    ("mx", Sequence [Some (n 2); Some (Str "1rem"); None; Some (Str "16px")],
     "mx-2 sm:mx-4 md:mx-4");
    ("margin",
     Keyed [("base", Str "8px"); ("md", n 2); ("lg", Str "0.5rem")],
     "m-2 md:m-2 lg:m-2");
    ("padding", Keyed [("base", n 4); ("lg", Str "1rem")], "p-4 lg:p-4");
    ("mx", Keyed [("base", Str "16px"); ("sm", n 4); ("xl", Str "1rem")],
     "mx-4 sm:mx-4 xl:mx-4");
    ("margin", Scalar (n 0), "m-0");
    ("margin", Scalar (Str "0"), "m-0");
    ("margin", Scalar (Str "0px"), "m-0");
    ("margin", Scalar (Str "0rem"), "m-0");
    ("padding", Scalar (Str "auto"), "p-auto");
    ("margin", Scalar (Str "-1"), "m-[-4px]");
    ("margin", Scalar (Str "2px"), "m-0.5");
    ("padding", Scalar (Str "6px"), "p-1.5");
    ("gap", Scalar (Str "10px"), "gap-2.5");
    ("margin", Scalar (Str "5vh"), "m-[5vh]");
    ("padding", Scalar (Str "calc(100% - 20px)"), "p-[calc(100%-20px)]");
    ("gap", Scalar (Str "clamp(1rem, 2vw, 3rem)"),
     "gap-[clamp(1rem,2vw,3rem)]");
    ("gap", Scalar (n 4), "gap-4");
    ("rowGap", Scalar (n 2), "gap-y-2");
    ("columnGap", Scalar (Str "1rem"), "gap-x-4");
    ("space", Scalar (n 4), "space-4");
    ("space", Keyed [("base", Str "8px"); ("md", Str "0.5rem")],
     "space-2 md:space-2") ].

(** How a numeric literal starts, once the sign is taken: [Infinity], a
    digit, or a point and a digit. *)
Definition numberStart (t : string) : bool :=
  prefix "Infinity" t ||
  match t with
  | String c r =>
      isDigit c ||
      ((c =? ".")%char &&
       match r with
       | String d _ => isDigit d
       | EmptyString => false
       end)
  | EmptyString => false
  end.

(** A string of the form "[...]". *)
Definition bracketed (r : string) : Prop :=
  exists body, r = "[" ++ body ++ "]".

(** The sign of a number that has one. *)
Definition signOf (x : number) : option bool :=
  match x with
  | S754_zero s | S754_infinity s | S754_finite s _ _ => Some s
  | S754_nan => None
  end.

(** The decimal text of a natural number. *)
Definition decimal (n : nat) : string := digitsOf (Z.of_nat n).

(** What the array branch puts before the first six surviving
    elements. *)
Definition ladderTexts : list string :=
  [EmptyString; "sm:"; "md:"; "lg:"; "xl:"; "2xl:"].

(** What the object branch puts before the class of the entry with key
    [k]. *)
Definition keyPrefix (k : string) : string :=
  if k =? "base" then EmptyString else k ++ ":".

(** The scalars [l] with what the array branch puts before the class of
    each, the first one at counter [k]. *)
Fixpoint numbered (k : nat) (l : list scalar) : list (string * scalar) :=
  match l with
  | [] => []
  | v :: r => (nth k ladderTexts "undefined:", v) :: numbered (S k) r
  end.


(** The class token of a leaf under a class prefix. *)
Definition tokenOf (prefix : string) (leaf : string * scalar) : string :=
  fst leaf ++ prefix ++ "-" ++ normalizeSpacing (Some (snd leaf)).



(** A text whose first code unit would carry on a decimal literal: a
    digit, a point or an exponent mark. *)
Definition continuesNumber (u : string) : bool :=
  match u with
  | String c _ =>
      isDigit c || (c =? ".")%char || (c =? "e")%char || (c =? "E")%char
  | EmptyString => false
  end.

(** ** Facts about the number model *)

Module JsNumberFacts.

Lemma shr_1_nonneg mrs :
  (0 <= shr_m mrs)%Z -> (0 <= shr_m (shr_1 mrs))%Z.
Proof.
  destruct mrs as [m r s]; simpl.
  destruct m as [|p|p]; [ | destruct p | ]; simpl; lia.
Qed.

Lemma iter_pos_inv {A : Type} (P : A -> Prop) (f : A -> A) :
  (forall x, P x -> P (f x)) ->
  forall n x, P x -> P (iter_pos f n x).
Proof.
  intros Hf; induction n as [n IH|n IH|]; simpl; intros x Hx; auto.
Qed.

Lemma shr_nonneg mrs e n :
  (0 <= shr_m mrs)%Z -> (0 <= shr_m (fst (shr mrs e n)))%Z.
Proof.
  intros H; destruct n as [|p|p]; simpl; trivial.
  apply (iter_pos_inv (fun r => (0 <= shr_m r)%Z)); trivial.
  exact shr_1_nonneg.
Qed.

Lemma shr_record_of_loc_m m l : shr_m (shr_record_of_loc m l) = m.
Proof. destruct l as [|[]]; reflexivity. Qed.

Lemma shr_fexp_nonneg m e l :
  (0 <= m)%Z -> (0 <= shr_m (fst (shr_fexp prec emax m e l)))%Z.
Proof.
  intros H; unfold shr_fexp; apply shr_nonneg.
  now rewrite shr_record_of_loc_m.
Qed.

Lemma round_nearest_even_nonneg m l :
  (0 <= m)%Z -> (0 <= round_nearest_even m l)%Z.
Proof.
  intros H; destruct l as [|[]]; simpl; trivial; try lia.
  destruct (Z.even m); lia.
Qed.

(** Rounding a mantissa that is not negative never gives [NaN]. *)
Lemma binary_round_aux_not_nan sx mx ex lx :
  (0 <= mx)%Z -> isNaN (binary_round_aux prec emax sx mx ex lx) = false.
Proof.
  intros H; unfold binary_round_aux.
  pose proof (shr_fexp_nonneg mx ex lx H) as H1.
  destruct (shr_fexp prec emax mx ex lx) as [mrs' e']; simpl in H1.
  pose proof (shr_fexp_nonneg
                (round_nearest_even (shr_m mrs') (loc_of_shr_record mrs'))
                e' loc_Exact
                (round_nearest_even_nonneg _ _ H1)) as H2.
  destruct (shr_fexp prec emax _ e' loc_Exact) as [mrs'' e'']; simpl in H2.
  destruct (shr_m mrs'') as [|p|p]; try reflexivity; try lia.
  destruct (e'' <=? emax - prec)%Z; reflexivity.
Qed.

Lemma binary_round_not_nan sx mx ex :
  isNaN (binary_round prec emax sx mx ex) = false.
Proof.
  unfold binary_round.
  destruct (shl_align mx ex _) as [mz ez].
  apply binary_round_aux_not_nan; lia.
Qed.

Lemma div_eucl_quotient_nonneg a b q r :
  (0 <= a)%Z -> (0 < b)%Z -> Z.div_eucl a b = (q, r) -> (0 <= q)%Z.
Proof.
  intros Ha Hb E.
  assert (q = (a / b)%Z) as -> by (unfold Z.div; now rewrite E).
  apply Z.div_pos; lia.
Qed.

(** A decimal never reads as [NaN]. *)
Lemma ofDecimal_not_nan neg m e : isNaN (ofDecimal neg m e) = false.
Proof.
  unfold ofDecimal; destruct m as [|p|p]; try reflexivity.
  destruct (0 <=? e)%Z eqn:He.
  - unfold binary_normalize.
    destruct (cond_Zopp neg (Z.pos p * 10 ^ e)); try reflexivity;
      apply binary_round_not_nan.
  - unfold SFdiv_core_binary.
    set (e' := Z.min _ _); set (m' := match (0 - 0 - e')%Z with
                                       | Z0 => _ | Zpos _ => _ | Zneg _ => _
                                       end).
    destruct (Z.div_eucl m' (10 ^ (- e))) as [q r] eqn:E.
    apply binary_round_aux_not_nan.
    apply (div_eucl_quotient_nonneg m' (10 ^ (- e)) q r); trivial.
    + subst m'; destruct (0 - 0 - e')%Z; try lia.
      rewrite Z.shiftl_mul_pow2 by lia.
      apply Z.mul_nonneg_nonneg; [lia | apply Z.pow_nonneg; lia].
    + apply Z.pow_pos_nonneg; lia.
Qed.

End JsNumberFacts.

(** ** Facts about strings and about the two parsers *)

Module JsStringFacts.





Lemma all_filter f g s : all f s = true -> all f (filter g s) = true.
Proof.
  induction s as [|c s IH]; simpl; trivial.
  intros H; apply andb_true_iff in H as [Hc Hs].
  destruct (g c); simpl; auto.
  now rewrite Hc, IH.
Qed.

Lemma noWhiteSpace_stripWhiteSpace s :
  noWhiteSpace (stripWhiteSpace s) = true.
Proof.
  unfold noWhiteSpace, stripWhiteSpace.
  induction s as [|c s IH]; simpl; trivial.
  destruct (isWhiteSpace c) eqn:E; simpl; trivial.
  now rewrite E, IH.
Qed.

Lemma truthy_app a b : truthy (a ++ b) = truthy a || truthy b.
Proof. destruct a; simpl; trivial. Qed.

Lemma truthy_String c s : truthy (String c s) = true.
Proof. reflexivity. Qed.

(** Filtering keeps a suffix whose code units all pass the filter. *)
Lemma endsWith_filter f s p :
  all f p = true -> endsWith s p = true -> endsWith (filter f s) p = true.
Proof.
  intros Hp; induction s as [|c s IH]; intros H.
  - exact H.
  - cbn [endsWith] in H; apply orb_true_iff in H as [H|H].
    + apply String.eqb_eq in H; subst p.
      assert (filter f (String c s) = String c s) as ->.
      { clear IH; revert Hp; generalize (String c s) as t.
        induction t as [|d t IHt]; simpl; trivial.
        intros H; apply andb_true_iff in H as [Hd Ht].
        now rewrite Hd, IHt. }
      cbn [endsWith]; now rewrite String.eqb_refl.
    + specialize (IH H); simpl.
      destruct (f c); trivial.
      cbn [endsWith]; rewrite IH; apply orb_true_r.
Qed.

(** Filtering keeps a prefix whose code units all pass the filter. *)
Lemma prefix_filter f p : forall s,
  all f p = true -> prefix p s = true -> prefix p (filter f s) = true.
Proof.
  induction p as [|c p IH]; intros s Hp H.
  - now destruct (filter f s).
  - simpl in Hp; apply andb_true_iff in Hp as [Hc Hp].
    destruct s as [|d s]; simpl in H; try discriminate.
    destruct (ascii_dec c d) as [->|Hn]; try discriminate.
    simpl; rewrite Hc; simpl.
    destruct (ascii_dec d d); try contradiction.
    now apply IH.
Qed.

End JsStringFacts.

Module ParseFacts.
Import JsStringFacts JsNumberFacts.

Lemma scanFloat_None s :
  scanFloat s = None <->
  numberStart (snd (takeSign (trimStart s))) = false.
Proof.
  unfold scanFloat, numberStart.
  destruct (takeSign (trimStart s)) as [neg t]; cbn [snd].
  destruct (prefix "Infinity" t); cbn [orb]; [split; discriminate|].
  destruct t as [|c r]; [now split|].
  cbn [span]; destruct (isDigit c) eqn:Ec; cbn [orb].
  - destruct (span isDigit r) as [d t'].
    destruct (match t' with
              | EmptyString => _
              | String _ _ => _
              end) as [fp t3].
    cbn; split; discriminate.
  - destruct (c =? ".")%char; cbn [andb]; [|now split].
    destruct r as [|d r']; [now split|].
    cbn [span]; destruct (isDigit d); [|now split].
    destruct (span isDigit r') as [fp t3]; cbn; split; discriminate.
Qed.

(** [parseFloat] gives [NaN] exactly when no prefix is a literal. *)
Lemma parseFloat_isNaN s :
  isNaN (parseFloat s) = true <-> scanFloat s = None.
Proof.
  unfold parseFloat; destruct (scanFloat s) as [[neg|neg d e]|]; cbn.
  - split; discriminate.
  - rewrite ofDecimal_not_nan; split; discriminate.
  - now split.
Qed.

(** Where [parseFloat] finds no number, [parseInt] finds none. *)
Lemma parseInt_NaN s : scanFloat s = None -> parseInt s = NaN.
Proof.
  rewrite scanFloat_None; unfold parseInt, numberStart.
  destruct (takeSign (trimStart s)) as [neg t]; cbn [snd].
  intros H; apply orb_false_iff in H as [_ H].
  destruct t as [|c r]; [reflexivity|].
  apply orb_false_iff in H as [Hc _].
  assert ((c =? "0")%char = false) as E0.
  { destruct (c =? "0")%char eqn:E; trivial.
    apply Ascii.eqb_eq in E; subst c; discriminate. }
  cbn [span]; rewrite Hc, E0; cbn [andb].
  now destruct r.
Qed.

Lemma digit_not_space c : isDigit c = true -> isWhiteSpace c = false.
Proof.
  destruct c as [[] [] [] [] [] [] [] []]; vm_compute; trivial;
    discriminate.
Qed.

Lemma numberStart_stripWhiteSpace t :
  numberStart t = true -> numberStart (stripWhiteSpace t) = true.
Proof.
  unfold numberStart; intros H; apply orb_true_iff in H as [H|H].
  - apply orb_true_iff; left.
    now apply prefix_filter.
  - apply orb_true_iff; right.
    destruct t as [|c r]; [discriminate|].
    apply orb_true_iff in H as [H|H].
    + unfold stripWhiteSpace; cbn [filter].
      rewrite (digit_not_space c H); cbn [negb]; now rewrite H.
    + apply andb_true_iff in H as [Hc Hd].
      apply Ascii.eqb_eq in Hc; subst c.
      destruct r as [|d r']; [discriminate|].
      unfold stripWhiteSpace; cbn [filter isWhiteSpace negb].
      rewrite (digit_not_space d Hd); cbn [negb Ascii.eqb].
      rewrite Hd; apply orb_true_r.
Qed.

Lemma scanFloat_minus r :
  scanFloat (String "-" r) = None <-> numberStart r = false.
Proof. now rewrite scanFloat_None. Qed.

(** Compacting a string that starts with a minus sign does not make a
    number disappear from its head. *)
Lemma scanFloat_removeSpaces s :
  startsWith s "-" = true ->
  scanFloat (removeSpaces s) = None -> scanFloat s = None.
Proof.
  unfold startsWith; destruct s as [|c r]; [discriminate|]; cbn [prefix].
  destruct (ascii_dec "-" c) as [<-|]; [intros _|discriminate].
  unfold removeSpaces.
  destruct (includes _ "calc" || includes _ "clamp"); trivial.
  change (stripWhiteSpace (String "-" r))
    with (String "-" (stripWhiteSpace r)).
  rewrite !scanFloat_minus.
  intros H; destruct (numberStart r) eqn:E; trivial.
  now rewrite (numberStart_stripWhiteSpace r E) in H.
Qed.

End ParseFacts.

Module PrintFacts.
Import JsStringFacts.

Lemma string_of_uint_digits d :
  all isDigit (NilEmpty.string_of_uint d) = true.
Proof. induction d; simpl; trivial. Qed.

Lemma digitsOf_digits z : all isDigit (digitsOf z) = true.
Proof.
  unfold digitsOf, NilZero.string_of_uint.
  destruct (N.to_uint (Z.to_N z)) eqn:E; trivial;
    rewrite <- E; apply string_of_uint_digits.
Qed.

Lemma digitsOf_truthy z : truthy (digitsOf z) = true.
Proof.
  unfold digitsOf, NilZero.string_of_uint.
  now destruct (N.to_uint (Z.to_N z)).
Qed.



Lemma render_truthy d n : truthy d = true -> truthy (render d n) = true.
Proof.
  intros Hd; unfold render.
  repeat match goal with
         | |- context [if ?b then _ else _] => destruct b
         end;
    repeat rewrite truthy_app; rewrite ?Hd; cbn;
    rewrite ?orb_true_r; trivial.
Qed.


Lemma toString_truthy x : truthy (toString x) = true.
Proof.
  destruct x as [s|s| |s m e]; try reflexivity.
  - now destruct s.
  - unfold toString.
    destruct (fraction m e) as [num den].
    destruct (shortest _ _ _ _ _ _) as [d n].
    rewrite truthy_app, (render_truthy _ _ (digitsOf_truthy d)).
    apply orb_true_r.
Qed.

End PrintFacts.

(** ** Facts about the normalizer *)

Module NormalizeFacts.
Import JsStringFacts PrintFacts.

Lemma mapGet_In {K V : Type} (keyEq : K -> K -> bool) m k (v : V) :
  mapGet keyEq m k = Some v -> In v (map snd m).
Proof.
  induction m as [|[k' v'] m IH]; simpl; [discriminate|].
  destruct (keyEq k' k); [intros [= ->]; now left | right; auto].
Qed.





Lemma normalizeNumber_truthy n : truthy (normalizeNumber n) = true.
Proof.
  unfold normalizeNumber.
  destruct (strictEq n (ofZ 0)); [reflexivity|].
  destruct (ltb n (ofZ 0)); [reflexivity|apply toString_truthy].
Qed.


Lemma normalizeText_truthy s : truthy (normalizeText s) = true.
Proof.
  unfold normalizeText; generalize (removeSpaces s); clear s.
  intros c; generalize (parseInt c); intros px.
  destruct (_ || _ || _); [reflexivity|].
  destruct (normalizeToRem c) as [remValue|].
  2: destruct (endsWith c "px").
  1: destruct (truthy remValue).
  1: destruct (mapGet String.eqb remToScaleMap remValue) as [sv|].
  1: destruct (truthy sv) eqn:E.
  1: exact E.
  all: try reflexivity.
  all: destruct (endsWith c "px"); try reflexivity;
    destruct (mapGet sameValueZero pxToScaleMap _) as [pv|];
    try destruct (truthy pv) eqn:Ep;
    destruct (ltb _ _); trivial.
Qed.





(** A value that is not [null] never normalizes to the empty string. *)
Lemma normalizeSpacing_truthy v :
  truthy (normalizeSpacing (Some v)) = true.
Proof.
  destruct v as [n|s]; cbn [normalizeSpacing].
  - apply normalizeNumber_truthy.
  - destruct (s =? "auto"); [reflexivity|].
    destruct (_ && _);
      [apply normalizeNumber_truthy | apply normalizeText_truthy].
Qed.


End NormalizeFacts.

(** ** Facts about the class synthesizer *)

Module SynthesizeFacts.
Import JsStringFacts NormalizeFacts.

Lemma classOf_Some bp prefix v :
  classOf bp prefix (Some v) =
  Some (bp ++ template prefix ++ "-" ++ normalizeSpacing (Some v)).
Proof. unfold classOf; now rewrite normalizeSpacing_truthy. Qed.

(** The array branch numbers the surviving elements 0, 1, 2, ... *)
Lemma mapSequence_tokensFrom prefix vs : forall i,
  dropNull (mapSequence prefix i vs) = tokensFrom prefix i (nonNull vs).
Proof.
  induction vs as [|[v|] vs IH]; intros i; cbn [mapSequence nonNull].
  - reflexivity.
  - rewrite classOf_Some; cbn [dropNull tokensFrom]; now rewrite IH.
  - cbn [dropNull]; apply IH.
Qed.

Lemma nth_error_tokensFrom prefix l : forall i k v,
  nth_error l k = Some v ->
  nth_error (tokensFrom prefix i l) k =
  Some (ladderPrefix (i + k) ++ template prefix ++ "-"
          ++ normalizeSpacing (Some v)).
Proof.
  induction l as [|w l IH]; intros i k v H; destruct k as [|k];
    try discriminate; cbn in H |- *.
  - injection H as ->; now rewrite Nat.add_0_r.
  - rewrite (IH (S i) k v H); now rewrite Nat.add_succ_r.
Qed.

Lemma ladderPrefix_beyond k : 6 <= k -> ladderPrefix k = "undefined:".
Proof.
  intros H; unfold ladderPrefix.
  destruct k as [|k]; [lia|]; cbn [Nat.eqb].
  assert (nth_error breakpoints (S k) = None) as ->; [|reflexivity].
  apply nth_error_None; cbn; lia.
Qed.

(** The synthesizer reads its prefix only through [template]. *)
Lemma mapSequence_template prefix vs : forall i,
  mapSequence prefix i vs = mapSequence (Some (template prefix)) i vs.
Proof.
  induction vs as [|[v|] vs IH]; intros i; cbn [mapSequence];
    try rewrite IH; reflexivity.
Qed.

Lemma convertSpacingWith_template prefix value :
  convertSpacingWith prefix value =
  convertSpacingWith (Some (template prefix)) value.
Proof.
  destruct value as [v|vs|entries]; cbn [convertSpacingWith].
  - reflexivity.
  - unfold sequenceTokens; now rewrite mapSequence_template.
  - reflexivity.
Qed.




Lemma ladderPrefix_clean i : noWhiteSpace (ladderPrefix i) = true.
Proof.
  do 7 (destruct i as [|i]; [reflexivity|]).
  rewrite ladderPrefix_beyond by lia; reflexivity.
Qed.

End SynthesizeFacts.

(** ** The properties *)

Import JsStringFacts ParseFacts NormalizeFacts SynthesizeFacts.

(** The number model on values with a known JavaScript result. *)
Lemma number_model_checks :
  map (fun s => toString (parseFloat s))
      ["0.1"; "8px"; "-4px"; "1e21"; "1e-7"; "123456789012345680000";
       "0.000001"; "1.7976931348623157e308"; "5e-324"; "1e23";
       "  .5e1x"; "-0"; "Infinityx"; "abc"; "9007199254740993"; "5.e3";
       "."; "1e400"]
  = ["0.1"; "8"; "-4"; "1e+21"; "1e-7"; "123456789012345680000";
     "0.000001"; "1.7976931348623157e+308"; "5e-324"; "1e+23";
     "5"; "0"; "Infinity"; "NaN"; "9007199254740992"; "5000";
     "NaN"; "Infinity"]
  /\ map (fun s => toString (parseInt s))
         ["12px"; "0x1fpx"; "-0x"; "px"; " -5calc"; "1e3"; "16.5px"]
     = ["12"; "31"; "NaN"; "NaN"; "-5"; "1"; "16"]
  /\ toString (mul (parseFloat "0.1") (ofZ 3)) = "0.30000000000000004"
  /\ toString (div (ofZ 1) (ofZ 3)) = "0.3333333333333333"
  /\ toString (div (parseFloat "6px") (ofZ 16)) = "0.375".
Proof.
  do 4 (split; [vm_compute; reflexivity|]).
  vm_compute; reflexivity.
Qed.

(** The model agrees with the repository's test on the cases that the
    code passes. *)
Lemma passingTests_hold :
  forallb (fun '(property, value, expected) =>
             convertSpacing property value =? expected) passingTests = true.
Proof. vm_compute; reflexivity. Qed.

(** C1.  On property "padding" and the array ["8px", null, "0.5rem"] the
    synthesizer returns "p-2 sm:p-2": the null takes no ladder slot, so
    the second surviving element gets the prefix of ladder index 1. *)
Theorem padding_sparse_array :
  convertSpacing "padding"
    (Sequence [Some (Str "8px"); None; Some (Str "0.5rem")])
  = "p-2 sm:p-2".
Proof. vm_compute; reflexivity. Qed.

(** C2.  For a known property, the tokens of an array are those of its
    non-null elements, numbered by a counter that starts at 0 and counts
    only them; so in [x, null, y] the token of y carries "sm:", the
    prefix of ladder index 1. *)
Theorem cursor_counts_non_null :
  forall property prefix vs x y,
    lookupPrefix property = Some prefix ->
    convertSpacing property (Sequence vs) =
      join " " (tokensFrom (Some prefix) 0 (nonNull vs))
    /\ convertSpacing property (Sequence [Some x; None; Some y]) =
         (prefix ++ "-" ++ normalizeSpacing (Some x)) ++ " " ++
         ("sm:" ++ prefix ++ "-" ++ normalizeSpacing (Some y)).
Proof.
  intros property prefix vs x y H.
  unfold convertSpacing; rewrite H; cbn [convertSpacingWith].
  unfold sequenceTokens; rewrite !mapSequence_tokensFrom.
  split; reflexivity.
Qed.

(** The array [2, null, 6] on "margin". *)
Lemma cursor_counts_non_null_witness :
  lookupPrefix "margin" = Some "m"
  /\ convertSpacing "margin"
       (Sequence [Some (Num (ofZ 2)); None; Some (Num (ofZ 6))])
     = "m-2 sm:m-6".
Proof.
  split; [reflexivity|].
  exact (proj2 (cursor_counts_non_null "margin" "m" []
                  (Num (ofZ 2)) (Num (ofZ 6)) eq_refl)).
Defined.

(** C3.  A string that starts with a minus sign and whose head parses as
    a number is normalized as that number, whatever follows the number:
    "-4px" gives "[-16px]" and "-1rem" gives "[-4px]". *)
Theorem negative_length_strings :
  normalizeSpacing (Some (Str "-4px")) = "[-16px]"
  /\ normalizeSpacing (Some (Str "-1rem")) = "[-4px]".
Proof. split; vm_compute; reflexivity. Qed.

(** C4, as stated, fails: "foo" is not in the map, and the call returns
    the class string "undefined-4". *)
Lemma unknown_property_is_not_rejected :
  lookupPrefix "foo" = None
  /\ convertSpacingCompletion "foo" (Scalar (Num (ofZ 4)))
     = Returns "undefined-4".
Proof. split; vm_compute; reflexivity. Qed.

(** C4, amended.  For a property that is neither in the map nor a name
    inherited from [Object.prototype], the call does not fail: it
    returns what it would return with the text "undefined" as prefix. *)
Theorem unknown_property_reads_undefined :
  forall property value,
    lookupPrefix property = None ->
    ~ In property inheritedNames ->
    convertSpacingCompletion property value =
      Returns (convertSpacingWith (Some "undefined") value).
Proof.
  intros property value H _.
  unfold convertSpacingCompletion, convertSpacing; rewrite H.
  now rewrite convertSpacingWith_template.
Qed.

(** The property "foo" on the array ["8px", null]. *)
Lemma unknown_property_reads_undefined_witness :
  lookupPrefix "foo" = None
  /\ ~ In "foo" inheritedNames
  /\ convertSpacingCompletion "foo" (Sequence [Some (Str "8px"); None])
     = Returns "undefined-2".
Proof.
  assert (~ In "foo" inheritedNames) as Hn.
  { cbn; intros H; repeat destruct H as [H|H]; discriminate || exact H. }
  split; [reflexivity|]; split; [exact Hn|].
  exact (unknown_property_reads_undefined
           "foo" (Sequence [Some (Str "8px"); None]) eq_refl Hn).
Defined.

(** C5.  The scale has 34 entries, 32 of them in rem; for each entry,
    the normalizer maps its length, and the pixel length that stands for
    it, to the entry's step. *)
Theorem scale_round_trip :
  List.length spacingScale = 34
  /\ List.length remToScaleMap = 32
  /\ Forall (fun '(step, len) =>
               normalizeSpacing (Some (Str len)) = step
               /\ normalizeSpacing (Some (Str (pxEquivalent len))) = step)
            spacingScale.
Proof.
  split; [reflexivity|]; split; [reflexivity|].
  unfold spacingScale.
  repeat (constructor; [split; vm_compute; reflexivity|]).
  constructor.
Qed.

(** C6, as stated, fails: "4" is a scale step and the token of "16px",
    and fed back as a string it gives "[4]". *)
Lemma scale_step_is_not_a_fixed_point :
  In "4" (map fst spacingScale)
  /\ normalizeSpacing (Some (Str "16px")) = "4"
  /\ normalizeSpacing (Some (Str "4")) = "[4]".
Proof.
  split; [|split; vm_compute; reflexivity].
  cbn; do 9 right; left; reflexivity.
Qed.

(** C6, amended.  The tokens "0" and "auto" are returned unchanged when
    fed back as strings.  A numeric scale step s other than "0" is not:
    fed back as a string it gives the bracketed literal "[s]".  Fed back
    as the number it denotes, every numeric step is returned
    unchanged. *)
Theorem canonical_tokens_fed_back :
  normalizeSpacing (Some (Str "0")) = "0"
  /\ normalizeSpacing (Some (Str "auto")) = "auto"
  /\ Forall (fun step =>
               normalizeSpacing (Some (Str step)) =
               if step =? "0" then "0" else "[" ++ step ++ "]")
            (numericSteps spacingScale)
  /\ Forall (fun step =>
               normalizeSpacing (Some (Num (parseFloat step))) = step)
            (numericSteps spacingScale).
Proof.
  split; [reflexivity|]; split; [reflexivity|].
  unfold spacingScale; cbn [numericSteps map fst List.filter String.eqb
                            Ascii.eqb Bool.eqb negb].
  split.
  - repeat (constructor; [vm_compute; reflexivity|]).
    constructor.
  - repeat (constructor; [vm_compute; reflexivity|]).
    constructor.
Qed.


(** C8.  "marginInlineStart" and "ms" have the same class prefix, and
    the synthesizer returns the same string for both on every value. *)
Theorem inline_start_equals_ms :
  lookupPrefix "marginInlineStart" = Some "ms"
  /\ lookupPrefix "ms" = Some "ms"
  /\ forall X, convertSpacing "marginInlineStart" X = convertSpacing "ms" X.
Proof.
  split; [reflexivity|]; split; [reflexivity|].
  intros X; reflexivity.
Qed.

(** C9, as stated, fails: "- 5 calc px" ends in "px" and has no number
    at its head, but its compacted form "-5calcpx" has one, and the
    result is "[-5px]". *)
Lemma compacted_head_parses :
  endsWith "- 5 calc px" "px" = true
  /\ isNaN (parseFloat "- 5 calc px") = true
  /\ normalizeSpacing (Some (Str "- 5 calc px")) = "[-5px]".
Proof.
  do 2 (split; [vm_compute; reflexivity|]).
  vm_compute; reflexivity.
Qed.

Lemma endsWith_removeSpaces s :
  endsWith s "px" = true -> endsWith (removeSpaces s) "px" = true.
Proof.
  intros H; unfold removeSpaces.
  destruct (includes s "calc" || includes s "clamp"); trivial.
  now apply endsWith_filter.
Qed.

(** The string branch on a string that ends in "px" and has no number
    at its head. *)
Lemma normalizeText_NaN s :
  endsWith (removeSpaces s) "px" = true ->
  scanFloat (removeSpaces s) = None ->
  normalizeText s = "[NaNpx]".
Proof.
  unfold normalizeText; generalize (removeSpaces s); clear s.
  intros c Hpx Hc.
  assert (parseFloat c = NaN) as Hf by (unfold parseFloat; now rewrite Hc).
  assert ((c =? "0") || (c =? "0px") || (c =? "0rem") = false) as ->.
  { destruct (String.eqb_spec c "0") as [E|_];
      [subst c; vm_compute in Hc; discriminate|].
    destruct (String.eqb_spec c "0px") as [E|_];
      [subst c; vm_compute in Hc; discriminate|].
    destruct (String.eqb_spec c "0rem") as [E|_];
      [subst c; vm_compute in Hc; discriminate|].
    reflexivity. }
  unfold normalizeToRem; rewrite Hpx, Hf, (parseInt_NaN c Hc).
  reflexivity.
Qed.

(** C9, amended.  For every string that ends in "px" and whose compacted
    form ([removeSpaces]) has no number at its head, the bare "px"
    among them, the normalizer returns "[NaNpx]". *)
Theorem unparsable_px_gives_NaN :
  forall s,
    endsWith s "px" = true ->
    isNaN (parseFloat (removeSpaces s)) = true ->
    normalizeSpacing (Some (Str s)) = "[NaNpx]".
Proof.
  intros s Hpx Hnan; apply parseFloat_isNaN in Hnan.
  cbn [normalizeSpacing].
  destruct (String.eqb_spec s "auto") as [->|_]; [discriminate|].
  assert (startsWith s "-" && negb (isNaN (parseFloat s)) = false) as ->.
  { destruct (startsWith s "-") eqn:E; trivial; cbn [andb].
    apply negb_false_iff, parseFloat_isNaN.
    now apply scanFloat_removeSpaces. }
  apply normalizeText_NaN; trivial.
  now apply endsWith_removeSpaces.
Qed.

(** The bare "px". *)
Lemma unparsable_px_gives_NaN_witness :
  endsWith "px" "px" = true
  /\ isNaN (parseFloat (removeSpaces "px")) = true
  /\ normalizeSpacing (Some (Str "px")) = "[NaNpx]".
Proof.
  split; [reflexivity|]; split; [reflexivity|].
  exact (unparsable_px_gives_NaN "px" eq_refl eq_refl).
Defined.

(** ** Further properties of the normalizer *)

Module SignFacts.
Import JsNumberFacts.

Lemma binary_round_aux_sign sx mx ex lx :
  (0 <= mx)%Z -> signOf (binary_round_aux prec emax sx mx ex lx) = Some sx.
Proof.
  intros H; unfold binary_round_aux.
  pose proof (shr_fexp_nonneg mx ex lx H) as H1.
  destruct (shr_fexp prec emax mx ex lx) as [mrs' e']; simpl in H1.
  pose proof (shr_fexp_nonneg
                (round_nearest_even (shr_m mrs') (loc_of_shr_record mrs'))
                e' loc_Exact
                (round_nearest_even_nonneg _ _ H1)) as H2.
  destruct (shr_fexp prec emax _ e' loc_Exact) as [mrs'' e'']; simpl in H2.
  destruct (shr_m mrs'') as [|p|p]; try reflexivity; try lia.
  destruct (e'' <=? emax - prec)%Z; reflexivity.
Qed.

Lemma binary_round_sign sx mx ex :
  signOf (binary_round prec emax sx mx ex) = Some sx.
Proof.
  unfold binary_round.
  destruct (shl_align mx ex _) as [mz ez].
  apply binary_round_aux_sign; lia.
Qed.

(** A decimal read with a sign has that sign. *)
Lemma ofDecimal_sign neg m e : signOf (ofDecimal neg m e) = Some neg.
Proof.
  unfold ofDecimal; destruct m as [|p|p]; try reflexivity.
  destruct (0 <=? e)%Z eqn:He.
  - apply Z.leb_le in He.
    assert (0 < Z.pos p * 10 ^ e)%Z as Hpos
      by (apply Z.mul_pos_pos; [lia | apply Z.pow_pos_nonneg; lia]).
    unfold binary_normalize.
    destruct neg; cbn [cond_Zopp].
    + destruct (Z.pos p * 10 ^ e)%Z as [|q|q] eqn:E; try lia.
      cbn [Z.opp]; apply binary_round_sign.
    + destruct (Z.pos p * 10 ^ e)%Z as [|q|q] eqn:E; try lia.
      apply binary_round_sign.
  - unfold SFdiv_core_binary.
    set (e' := Z.min _ _); set (m' := match (0 - 0 - e')%Z with
                                       | Z0 => _ | Zpos _ => _ | Zneg _ => _
                                       end).
    destruct (Z.div_eucl m' (10 ^ (- e))) as [q r] eqn:E.
    apply binary_round_aux_sign.
    apply (div_eucl_quotient_nonneg m' (10 ^ (- e)) q r); trivial.
    + subst m'; destruct (0 - 0 - e')%Z; try lia.
      rewrite Z.shiftl_mul_pow2 by lia.
      apply Z.mul_nonneg_nonneg; [lia | apply Z.pow_nonneg; lia].
    + apply Z.pow_pos_nonneg; lia.
Qed.

(** What [parseFloat] reads off a string that starts with a minus sign
    is [NaN] or has the minus sign. *)
Lemma parseFloat_minus s :
  startsWith s "-" = true ->
  parseFloat s = NaN \/ signOf (parseFloat s) = Some true.
Proof.
  unfold startsWith; destruct s as [|c r]; [discriminate|]; cbn [prefix].
  destruct (ascii_dec "-" c) as [<-|]; [intros _|discriminate].
  unfold parseFloat, scanFloat.
  change (takeSign (trimStart (String "-" r))) with (true, r).
  cbv iota beta.
  destruct (prefix "Infinity" r); [now right|].
  destruct (span isDigit r) as [ip t2].
  destruct (match t2 with
            | EmptyString => _
            | String _ _ => _
            end) as [fp t3].
  destruct ((ip =? EmptyString) && (fp =? EmptyString)); [now left|].
  right; apply ofDecimal_sign.
Qed.

Lemma append_assoc a b c : (a ++ b) ++ c = a ++ b ++ c.
Proof. induction a as [|x a IH]; simpl; [reflexivity|now rewrite IH]. Qed.

Lemma bracketed_inner a x b : bracketed (("[" ++ a) ++ x ++ b ++ "]").
Proof. exists (a ++ x ++ b); cbn; now rewrite !append_assoc. Qed.

(** A number with the minus sign normalizes to "0" or to a bracketed
    literal. *)
Lemma normalizeNumber_minus x :
  signOf x = Some true ->
  normalizeNumber x = "0" \/ bracketed (normalizeNumber x).
Proof.
  unfold normalizeNumber.
  change (ofZ 0) with (S754_zero false).
  destruct x as [s|s| |s m e]; cbn [signOf]; intros [= ->].
  - now left.
  - right; apply (bracketed_inner "-" _ "px").
  - right; apply (bracketed_inner "-" _ "px").
Qed.

End SignFacts.

Module ShapeFacts.
Import SignFacts.

Lemma remToScaleMap_steps v :
  In v (map snd remToScaleMap) -> In v (map fst spacingScale).
Proof.
  intros H.
  assert (forallb (fun w => existsb (String.eqb w) (map fst spacingScale))
                  (map snd remToScaleMap) = true) as Hall
    by (vm_compute; reflexivity).
  rewrite forallb_forall in Hall; specialize (Hall v H).
  apply existsb_exists in Hall as [w [Hw E]].
  apply String.eqb_eq in E; subst w; exact Hw.
Qed.

Lemma pxToScaleMap_steps v :
  In v (map snd pxToScaleMap) -> In v (map fst spacingScale).
Proof.
  intros H.
  assert (forallb (fun w => existsb (String.eqb w) (map fst spacingScale))
                  (map snd pxToScaleMap) = true) as Hall
    by (vm_compute; reflexivity).
  rewrite forallb_forall in Hall; specialize (Hall v H).
  apply existsb_exists in Hall as [w [Hw E]].
  apply String.eqb_eq in E; subst w; exact Hw.
Qed.

(** The string branch gives "0", a scale step or a bracketed literal. *)
Lemma normalizeText_shape s :
  normalizeText s = "0"
  \/ In (normalizeText s) (map fst spacingScale)
  \/ bracketed (normalizeText s).
Proof.
  unfold normalizeText; generalize (removeSpaces s); clear s.
  intros c; generalize (parseInt c); intros px.
  destruct (_ || _ || _); [now left|].
  match goal with
  | |- context [match ?f with Some a => a | None => ?rest end] =>
      assert (rest = "0" \/ In rest (map fst spacingScale)
              \/ bracketed rest) as Hpx
  end.
  { destruct (endsWith c "px");
      [|right; right; now exists c].
    destruct (mapGet sameValueZero pxToScaleMap (abs px)) as [pv|] eqn:Ep.
    - pose proof (pxToScaleMap_steps pv
                    (NormalizeFacts.mapGet_In _ _ _ _ Ep)) as Hpv.
      destruct (truthy pv), (ltb px (ofZ 0)); auto;
        right; right;
        first [apply (bracketed_inner "-" _ "px")
              |apply (bracketed_inner EmptyString _ "px")].
    - destruct (ltb px (ofZ 0)); right; right;
        [apply (bracketed_inner "-" _ "px")
        |apply (bracketed_inner EmptyString _ "px")]. }
  destruct (normalizeToRem c) as [remValue|]; [|exact Hpx].
  destruct (truthy remValue); [|exact Hpx].
  destruct (mapGet String.eqb remToScaleMap remValue) as [sv|] eqn:E;
    [|exact Hpx].
  destruct (truthy sv); [|exact Hpx].
  right; left.
  exact (remToScaleMap_steps sv (NormalizeFacts.mapGet_In _ _ _ _ E)).
Qed.

End ShapeFacts.

Import SignFacts ShapeFacts.

(** X1.  The normalizer returns the empty string for [null] and for
    nothing else: no number and no string, the empty string among them,
    is dropped by the synthesizer. *)
Theorem normalize_empty_only_for_null :
  forall v, normalizeSpacing v = EmptyString <-> v = None.
Proof.
  intros [v|]; split; try reflexivity; try discriminate.
  intros H; pose proof (normalizeSpacing_truthy v) as Ht.
  rewrite H in Ht; discriminate.
Qed.

(** X2.  Whatever the string, the normalizer returns "auto", "0", a step
    of the scale or a bracketed literal. *)
Theorem string_token_shape :
  forall s,
    normalizeSpacing (Some (Str s)) = "auto"
    \/ normalizeSpacing (Some (Str s)) = "0"
    \/ In (normalizeSpacing (Some (Str s))) (map fst spacingScale)
    \/ bracketed (normalizeSpacing (Some (Str s))).
Proof.
  intros s; cbn [normalizeSpacing].
  destruct (s =? "auto"); [now left|]; right.
  destruct (startsWith s "-") eqn:Hm; cbn [andb].
  - destruct (isNaN (parseFloat s)) eqn:Hn; cbn [negb].
    + apply normalizeText_shape.
    + destruct (parseFloat_minus s Hm) as [E|Hs].
      * rewrite E in Hn; discriminate.
      * destruct (normalizeNumber_minus _ Hs); auto.
  - apply normalizeText_shape.
Qed.

(** Two suffixes of one string: one is a suffix of the other. *)
Lemma endsWith_comparable s p q :
  endsWith s p = true -> endsWith s q = true ->
  endsWith p q = true \/ endsWith q p = true.
Proof.
  induction s as [|c s IH]; cbn [endsWith]; intros Hp Hq.
  - rewrite orb_false_r in Hp, Hq.
    apply String.eqb_eq in Hp, Hq; subst p q; now left.
  - apply orb_true_iff in Hp as [Hp|Hp].
    + apply String.eqb_eq in Hp; subst p; left.
      cbn [endsWith]; exact Hq.
    + apply orb_true_iff in Hq as [Hq|Hq]; [|now apply IH].
      apply String.eqb_eq in Hq; subst q; right.
      cbn [endsWith]; rewrite Hp; apply orb_true_r.
Qed.

Lemma remToScaleMap_truthy v :
  In v (map snd remToScaleMap) -> truthy v = true.
Proof. revert v; apply forallb_forall; vm_compute; reflexivity. Qed.

(** X4.  A string that ends in "rem" and does not start with a minus
    sign is looked up as text, once compacted: "0rem" gives "0", a rem
    length of the scale gives its step, and any other text is put in
    brackets unchanged, whatever its numeric value. *)
Theorem rem_length_matched_as_text :
  forall s,
    startsWith s "-" = false ->
    endsWith s "rem" = true ->
    normalizeSpacing (Some (Str s)) =
    if removeSpaces s =? "0rem" then "0"
    else match mapGet String.eqb remToScaleMap (removeSpaces s) with
         | Some step => step
         | None => "[" ++ removeSpaces s ++ "]"
         end.
Proof.
  intros s Hm Hrem; cbn [normalizeSpacing].
  destruct (String.eqb_spec s "auto") as [->|_]; [discriminate|].
  rewrite Hm; cbn [andb].
  assert (endsWith (removeSpaces s) "rem" = true) as Hc.
  { unfold removeSpaces.
    destruct (includes s "calc" || includes s "clamp"); trivial.
    now apply endsWith_filter. }
  unfold normalizeText; revert Hc; generalize (removeSpaces s); clear.
  intros c Hc.
  assert (endsWith c "px" = false) as Hpx.
  { destruct (endsWith c "px") eqn:E; trivial.
    destruct (endsWith_comparable c "px" "rem" E Hc); discriminate. }
  assert (truthy c = true) as Ht by (destruct c; [discriminate|reflexivity]).
  assert ((c =? "0") || (c =? "0px") || (c =? "0rem") = (c =? "0rem"))
    as ->.
  { destruct (String.eqb_spec c "0") as [->|_]; [discriminate|].
    destruct (String.eqb_spec c "0px") as [->|_]; [discriminate|].
    reflexivity. }
  destruct (c =? "0rem"); [reflexivity|].
  unfold normalizeToRem; rewrite Hpx, Hc, Ht.
  destruct (mapGet String.eqb remToScaleMap c) as [sv|] eqn:E; trivial.
  now rewrite (remToScaleMap_truthy sv (mapGet_In _ _ _ _ E)).
Qed.

(** The string "1.0rem": one rem in value, not a length of the scale in
    text. *)
Lemma rem_length_matched_as_text_witness :
  startsWith "1.0rem" "-" = false
  /\ endsWith "1.0rem" "rem" = true
  /\ normalizeSpacing (Some (Str "1.0rem")) = "[1.0rem]".
Proof.
  split; [reflexivity|]; split; [reflexivity|].
  exact (rem_length_matched_as_text "1.0rem" eq_refl eq_refl).
Defined.

(** X5.  For every whole number of pixels n up to 400, "npx" gives the
    step of the scale that is n pixels long when there is one, and
    "[npx]" when there is none: the rem table and the pixel table
    agree. *)
Theorem whole_pixels_follow_the_scale :
  forall n,
    n <= 400 ->
    normalizeSpacing (Some (Str (decimal n ++ "px"))) =
    match mapGet sameValueZero pxToScaleMap (ofZ (Z.of_nat n)) with
    | Some step => step
    | None => "[" ++ decimal n ++ "px]"
    end.
Proof.
  intros n Hn.
  assert (forallb
            (fun n =>
               normalizeSpacing (Some (Str (decimal n ++ "px"))) =?
               match mapGet sameValueZero pxToScaleMap
                            (ofZ (Z.of_nat n)) with
               | Some step => step
               | None => "[" ++ decimal n ++ "px]"
               end)
            (seq 0 401) = true) as Hall by (vm_compute; reflexivity).
  rewrite forallb_forall in Hall.
  apply String.eqb_eq, Hall, in_seq; lia.
Qed.

(** Seven pixels, which no step of the scale measures. *)
Lemma whole_pixels_follow_the_scale_witness :
  7 <= 400 /\ normalizeSpacing (Some (Str "7px")) = "[7px]".
Proof.
  split; [lia|].
  exact (whole_pixels_follow_the_scale 7
           (le_S _ _ (Nat.le_add_l 7 392))).
Defined.

(** X6.  For every whole number n from 1 to 300: the number n gives its
    decimal text, the number -n gives "[-4npx]", and the string "-n"
    gives the same as the number -n. *)
Theorem whole_numbers_four_pixel_rule :
  forall n,
    1 <= n <= 300 ->
    normalizeSpacing (Some (Num (ofZ (Z.of_nat n)))) = decimal n
    /\ normalizeSpacing (Some (Num (ofZ (- Z.of_nat n)))) =
         "[-" ++ decimal (4 * n) ++ "px]"
    /\ normalizeSpacing (Some (Str ("-" ++ decimal n))) =
         "[-" ++ decimal (4 * n) ++ "px]".
Proof.
  intros n Hn.
  assert (forallb
            (fun n =>
               (normalizeSpacing (Some (Num (ofZ (Z.of_nat n))))
                  =? decimal n)
               && (normalizeSpacing (Some (Num (ofZ (- Z.of_nat n))))
                     =? "[-" ++ decimal (4 * n) ++ "px]")
               && (normalizeSpacing (Some (Str ("-" ++ decimal n)))
                     =? "[-" ++ decimal (4 * n) ++ "px]"))
            (seq 1 300) = true) as Hall by (vm_compute; reflexivity).
  rewrite forallb_forall in Hall.
  assert (In n (seq 1 300)) as Hin by (apply in_seq; lia).
  specialize (Hall n Hin).
  apply andb_true_iff in Hall as [Hall H3].
  apply andb_true_iff in Hall as [H1 H2].
  now rewrite String.eqb_eq in H1, H2, H3.
Qed.

(** The number 3. *)
Lemma whole_numbers_four_pixel_rule_witness :
  1 <= 3 <= 300
  /\ normalizeSpacing (Some (Num (ofZ 3))) = "3"
  /\ normalizeSpacing (Some (Num (ofZ (-3)))) = "[-12px]"
  /\ normalizeSpacing (Some (Str "-3")) = "[-12px]".
Proof.
  assert (1 <= 3 <= 300) as H by lia.
  split; [exact H|].
  exact (whole_numbers_four_pixel_rule 3 H).
Defined.

(** X7.  Building the two tables loses no entry of the scale: every rem
    length is found in the rem table under its step, and every entry's
    pixel count is found in the pixel table under its step. *)
Theorem scale_entries_are_indexed :
  List.length pxToScaleMap = List.length spacingScale
  /\ Forall (fun '(step, len) =>
               (if endsWith len "rem"
                then mapGet String.eqb remToScaleMap len
                else Some step) = Some step
               /\ match scalePx len with
                  | Some px => mapGet sameValueZero pxToScaleMap px
                  | None => None
                  end = Some step)
            spacingScale.
Proof.
  split; [reflexivity|].
  unfold spacingScale.
  repeat (constructor; [split; vm_compute; reflexivity|]).
  constructor.
Qed.

(** X8.  An array gives exactly one token for each of its elements that
    is not null. *)
Theorem one_token_per_non_null :
  forall property vs,
    convertSpacing property (Sequence vs) =
      join " " (sequenceTokens (lookupPrefix property) vs)
    /\ List.length (sequenceTokens (lookupPrefix property) vs) =
       List.length (nonNull vs).
Proof.
  intros property vs; split; [reflexivity|].
  unfold sequenceTokens; rewrite mapSequence_tokensFrom.
  generalize 0; induction (nonNull vs) as [|v l IH]; intros i;
    cbn [tokensFrom List.length]; [reflexivity|now rewrite IH].
Qed.

(** X10.  For a known property, an object gives one token for every
    entry, in the order of the entries: the key "base" adds nothing
    before the class, any other key is put before it with a colon,
    whether it names a breakpoint or not. *)
Theorem keyed_entries_all_kept :
  forall property prefix entries,
    lookupPrefix property = Some prefix ->
    convertSpacing property (Keyed entries) =
    join " " (map (fun '(k, v) =>
                     keyPrefix k ++ prefix ++ "-"
                       ++ normalizeSpacing (Some v))
                  entries).
Proof.
  intros property prefix entries H.
  unfold convertSpacing; rewrite H; cbn [convertSpacingWith].
  unfold keyedTokens; f_equal.
  induction entries as [|[k v] entries IH]; [reflexivity|].
  cbn [map mapEntry]; rewrite classOf_Some; cbn [dropNull].
  now rewrite IH.
Qed.

(** An object with a key that is no breakpoint. *)
Lemma keyed_entries_all_kept_witness :
  lookupPrefix "py" = Some "py"
  /\ convertSpacing "py"
       (Keyed [("base", Num (ofZ 1)); ("wide", Str "8px")])
     = "py-1 wide:py-2".
Proof.
  split; [reflexivity|].
  exact (keyed_entries_all_kept "py" "py"
           [("base", Num (ofZ 1)); ("wide", Str "8px")] eq_refl).
Defined.

(** X11.  An array of one scalar, and an object with the one key
    "base", give what the scalar gives. *)
Theorem singleton_equals_scalar :
  forall property v,
    convertSpacing property (Sequence [Some v]) =
      convertSpacing property (Scalar v)
    /\ convertSpacing property (Keyed [("base", v)]) =
         convertSpacing property (Scalar v).
Proof.
  intros property v; unfold convertSpacing.
  cbn [convertSpacingWith]; unfold sequenceTokens, keyedTokens.
  cbn [mapSequence map mapEntry Nat.eqb].
  rewrite !classOf_Some, normalizeSpacing_truthy.
  split; reflexivity.
Qed.

Lemma join_cons_truthy x l :
  truthy x = true -> truthy (join " " (x :: l)) = true.
Proof.
  intros H; destruct l as [|y l]; cbn [join concat]; trivial.
  now rewrite truthy_app, H.
Qed.

Lemma token_truthy bp prefix t :
  truthy (bp ++ template prefix ++ "-" ++ t) = true.
Proof. rewrite !truthy_app; cbn; now rewrite !orb_true_r. Qed.

(** X12.  The synthesizer returns the empty string for an array exactly
    when the array holds no element that is not null, and for an object
    exactly when the object has no entry. *)
Theorem empty_output_iff_nothing_to_emit :
  forall property vs entries,
    (convertSpacing property (Sequence vs) = EmptyString
     <-> nonNull vs = [])
    /\ (convertSpacing property (Keyed entries) = EmptyString
        <-> entries = []).
Proof.
  intros property vs entries; unfold convertSpacing.
  cbn [convertSpacingWith]; unfold sequenceTokens, keyedTokens; split.
  - rewrite mapSequence_tokensFrom.
    destruct (nonNull vs) as [|v l]; cbn [tokensFrom]; [now split|].
    split; [|discriminate].
    intros H.
    pose proof (join_cons_truthy _
                  (tokensFrom (lookupPrefix property) 1 l)
                  (token_truthy (ladderPrefix 0) (lookupPrefix property)
                                (normalizeSpacing (Some v)))) as Ht.
    rewrite H in Ht; discriminate.
  - destruct entries as [|[k v] entries]; [now split|].
    split; [|discriminate].
    cbn [map mapEntry]; rewrite classOf_Some; cbn [dropNull].
    intros H.
    pose proof (join_cons_truthy _
                  (dropNull (map (mapEntry (lookupPrefix property))
                                 entries))
                  (token_truthy
                     (if k =? "base" then EmptyString else k ++ ":")
                     (lookupPrefix property)
                     (normalizeSpacing (Some v)))) as Ht.
    rewrite H in Ht; discriminate.
Qed.

(** X13.  The class prefix of a known property, unless it is "gap-x" or
    "gap-y", is itself a known property with itself as prefix, and the
    synthesizer returns the same string for the property and for its
    prefix on every value: every long or logical name of a margin or a
    padding can be replaced by its shorthand. *)
Theorem shorthand_is_canonical :
  forall property prefix,
    lookupPrefix property = Some prefix ->
    prefix <> "gap-x" ->
    prefix <> "gap-y" ->
    lookupPrefix prefix = Some prefix
    /\ forall X, convertSpacing prefix X = convertSpacing property X.
Proof.
  intros property prefix H Hx Hy.
  assert (lookupPrefix prefix = Some prefix) as Hp.
  { assert (forallb
              (fun v => (v =? "gap-x") || (v =? "gap-y")
                        || match lookupPrefix v with
                           | Some w => w =? v
                           | None => false
                           end)
              (map snd propertyPrefixMap) = true) as Hall
      by (vm_compute; reflexivity).
    rewrite forallb_forall in Hall.
    specialize (Hall prefix (mapGet_In _ _ _ _ H)).
    destruct (String.eqb_spec prefix "gap-x"); [contradiction|].
    destruct (String.eqb_spec prefix "gap-y"); [contradiction|].
    cbn [orb] in Hall.
    destruct (lookupPrefix prefix) as [w|]; [|discriminate].
    now apply String.eqb_eq in Hall; subst w. }
  split; [exact Hp|].
  intros X; unfold convertSpacing; now rewrite H, Hp.
Qed.

(** The logical name "paddingBlockStart" and its shorthand "pt". *)
Lemma shorthand_is_canonical_witness :
  lookupPrefix "paddingBlockStart" = Some "pt"
  /\ "pt" <> "gap-x"
  /\ "pt" <> "gap-y"
  /\ lookupPrefix "pt" = Some "pt"
  /\ forall X, convertSpacing "pt" X = convertSpacing "paddingBlockStart" X.
Proof.
  assert ("pt" <> "gap-x") as Hx by discriminate.
  assert ("pt" <> "gap-y") as Hy by discriminate.
  split; [reflexivity|]; split; [exact Hx|]; split; [exact Hy|].
  exact (shorthand_is_canonical "paddingBlockStart" "pt" eq_refl Hx Hy).
Defined.

Lemma filter_idempotent f s : filter f (filter f s) = filter f s.
Proof.
  induction s as [|c s IH]; cbn [filter]; trivial.
  destruct (f c) eqn:E; cbn [filter]; [now rewrite E, IH|exact IH].
Qed.

(** X14.  Compacting is idempotent: [removeSpaces] leaves its own result
    unchanged. *)
Theorem removeSpaces_idempotent :
  forall s, removeSpaces (removeSpaces s) = removeSpaces s.
Proof.
  intros s; unfold removeSpaces.
  destruct (includes s "calc" || includes s "clamp") eqn:E.
  - destruct (includes (stripWhiteSpace s) "calc"
              || includes (stripWhiteSpace s) "clamp"); trivial.
    apply filter_idempotent.
  - now rewrite E.
Qed.

Lemma normalizeText_compacted s t :
  removeSpaces s = removeSpaces t -> normalizeText s = normalizeText t.
Proof. unfold normalizeText; now intros ->. Qed.

Lemma calc_is_not_auto s :
  includes s "calc" || includes s "clamp" = true -> (s =? "auto") = false.
Proof.
  intros H; destruct (String.eqb_spec s "auto") as [->|_]; trivial.
  discriminate.
Qed.

(** X15.  White space does not matter in a string that contains "calc"
    or "clamp": two such strings that differ only in white space, neither
    starting with a minus sign, normalize to the same token. *)
Theorem white_space_in_calc_is_irrelevant :
  forall s t,
    includes s "calc" || includes s "clamp" = true ->
    includes t "calc" || includes t "clamp" = true ->
    stripWhiteSpace s = stripWhiteSpace t ->
    startsWith s "-" = false ->
    startsWith t "-" = false ->
    normalizeSpacing (Some (Str s)) = normalizeSpacing (Some (Str t)).
Proof.
  intros s t Hs Ht E Ms Mt; cbn [normalizeSpacing].
  rewrite (calc_is_not_auto s Hs), (calc_is_not_auto t Ht), Ms, Mt.
  cbn [andb]; apply normalizeText_compacted.
  unfold removeSpaces; now rewrite Hs, Ht.
Qed.

(** Two spellings of one calc expression. *)
Lemma white_space_in_calc_is_irrelevant_witness :
  let s := "calc(100% - 20px)" in
  let t := "calc( 100%  -20px )" in
  includes s "calc" || includes s "clamp" = true
  /\ includes t "calc" || includes t "clamp" = true
  /\ stripWhiteSpace s = stripWhiteSpace t
  /\ startsWith s "-" = false
  /\ startsWith t "-" = false
  /\ normalizeSpacing (Some (Str s)) = normalizeSpacing (Some (Str t)).
Proof.
  intros s t.
  do 5 (split; [reflexivity|]).
  exact (white_space_in_calc_is_irrelevant s t
           eq_refl eq_refl eq_refl eq_refl eq_refl).
Defined.

(** ** The returned string, leaf by leaf *)

Module LeafFacts.


(** What the array branch computes for the counter [i] is the [i]-th
    text of the ladder, and "undefined:" past its end. *)
Lemma ladderPrefix_text i : ladderPrefix i = nth i ladderTexts "undefined:".
Proof.
  do 6 (destruct i as [|i]; [reflexivity|]).
  rewrite ladderPrefix_beyond by lia; now destruct i.
Qed.

Lemma tokensFrom_numbered prefix l : forall i,
  tokensFrom (Some prefix) i l = map (tokenOf prefix) (numbered i l).
Proof.
  induction l as [|v l IH]; intros i; cbn [tokensFrom numbered map];
    [reflexivity|].
  now rewrite IH, ladderPrefix_text.
Qed.

Lemma sequence_string property prefix vs :
  lookupPrefix property = Some prefix ->
  convertSpacing property (Sequence vs) =
  concat " " (map (tokenOf prefix) (numbered 0 (nonNull vs))).
Proof.
  intros H; unfold convertSpacing; rewrite H; cbn [convertSpacingWith].
  unfold sequenceTokens, join.
  now rewrite mapSequence_tokensFrom, tokensFrom_numbered.
Qed.









Lemma numbered_combine l :
  List.length l <= 6 -> numbered 0 l = combine ladderTexts l.
Proof.
  do 7 (destruct l as [|? l]; [reflexivity|]); cbn; lia.
Qed.

Lemma nth_error_numbered l : forall i k v,
  nth_error l k = Some v ->
  nth_error (numbered i l) k = Some (nth (i + k) ladderTexts "undefined:", v).
Proof.
  induction l as [|w l IH]; intros i k v H; destruct k as [|k];
    try discriminate; cbn in H |- *.
  - injection H as ->; now rewrite Nat.add_0_r.
  - rewrite (IH (S i) k v H); now rewrite Nat.add_succ_r.
Qed.

End LeafFacts.

Import LeafFacts.



(** C10.  For a known property, the string returned for an array is the
    tokens of its non-null elements joined by single spaces, and the
    token of the seventh and of every later non-null element is
    "undefined:", class prefix, hyphen, normalized value: the element is
    emitted, with the text of a read past the end of the ladder. *)
Theorem ladder_overflow_prefix :
  forall property prefix vs k v,
    lookupPrefix property = Some prefix ->
    nth_error (nonNull vs) k = Some v ->
    6 <= k ->
    convertSpacing property (Sequence vs) =
      concat " " (map (tokenOf prefix) (numbered 0 (nonNull vs)))
    /\ nth_error (map (tokenOf prefix) (numbered 0 (nonNull vs))) k =
         Some ("undefined:" ++ prefix ++ "-" ++ normalizeSpacing (Some v)).
Proof.
  intros property prefix vs k v H Hv Hk; split.
  - now apply sequence_string.
  - rewrite nth_error_map, (nth_error_numbered _ 0 k v Hv).
    cbn [Nat.add option_map tokenOf fst snd].
    do 6 (destruct k as [|k]; [lia|]); now destruct k.
Qed.

(** An array of seven non-null elements and one null on "margin". *)
Lemma ladder_overflow_prefix_witness :
  let vs := [Some (Num (ofZ 1)); Some (Num (ofZ 2)); None;
             Some (Num (ofZ 3)); Some (Num (ofZ 4)); Some (Num (ofZ 5));
             Some (Num (ofZ 6)); Some (Str "8px")] in
  lookupPrefix "margin" = Some "m"
  /\ nth_error (nonNull vs) 6 = Some (Str "8px")
  /\ 6 <= 6
  /\ convertSpacing "margin" (Sequence vs) =
       "m-1 sm:m-2 md:m-3 lg:m-4 xl:m-5 2xl:m-6 undefined:m-2"
  /\ nth_error (map (tokenOf "m") (numbered 0 (nonNull vs))) 6 =
       Some "undefined:m-2".
Proof.
  intros vs.
  split; [reflexivity|]; split; [reflexivity|]; split; [lia|].
  exact (ladder_overflow_prefix "margin" "m" vs 6 (Str "8px")
           eq_refl eq_refl (le_n 6)).
Defined.

(** X9.  For a known property and an array with at most six elements
    that are not null, the returned string is the tokens of these
    elements joined by single spaces, with before them, in order,
    nothing, "sm:", "md:", "lg:", "xl:" and "2xl:". *)
Theorem ladder_prefixes_in_order :
  forall property prefix vs,
    lookupPrefix property = Some prefix ->
    List.length (nonNull vs) <= 6 ->
    convertSpacing property (Sequence vs) =
    concat " " (map (tokenOf prefix) (combine ladderTexts (nonNull vs))).
Proof.
  intros property prefix vs H Hl.
  rewrite (sequence_string property prefix vs H).
  now rewrite numbered_combine.
Qed.

(** The array [1, null, 2, 3, 4] on "gap". *)
Lemma ladder_prefixes_in_order_witness :
  let vs := [Some (Num (ofZ 1)); None; Some (Num (ofZ 2));
             Some (Num (ofZ 3)); Some (Num (ofZ 4))] in
  lookupPrefix "gap" = Some "gap"
  /\ List.length (nonNull vs) <= 6
  /\ convertSpacing "gap" (Sequence vs) = "gap-1 sm:gap-2 md:gap-3 lg:gap-4".
Proof.
  intros vs.
  assert (List.length (nonNull vs) <= 6) as H by (cbn; lia).
  split; [reflexivity|]; split; [exact H|].
  exact (ladder_prefixes_in_order "gap" "gap" vs eq_refl H).
Defined.

Lemma span_digits d u :
  all isDigit d = true -> continuesNumber u = false ->
  span isDigit (d ++ u) = (d, u).
Proof.
  intros Hd Hu; induction d as [|c d IH]; cbn [append span].
  - destruct u as [|c r]; [reflexivity|].
    cbn [continuesNumber] in Hu.
    repeat (apply orb_false_iff in Hu as [Hu _]).
    cbn [span]; now rewrite Hu.
  - cbn [all] in Hd; apply andb_true_iff in Hd as [Hc Hd].
    now rewrite Hc, (IH Hd).
Qed.

Lemma append_empty s : s ++ EmptyString = s.
Proof. induction s as [|c s IH]; cbn; [reflexivity|now rewrite IH]. Qed.

(** What [parseFloat] reads off a minus sign, digits and a text that
    does not carry the literal on: the digits, negated. *)
Lemma parseFloat_minus_digits d u :
  all isDigit d = true -> truthy d = true -> continuesNumber u = false ->
  parseFloat (String "-" (d ++ u)) = ofDecimal true (digitsValue 10 d) 0.
Proof.
  intros Hd Ht Hu; unfold parseFloat, scanFloat.
  change (takeSign (trimStart (String "-" (d ++ u)))) with (true, d ++ u).
  cbv iota beta.
  assert (prefix "Infinity" (d ++ u) = false) as ->.
  { destruct d as [|c d]; [discriminate|].
    cbn [all] in Hd; apply andb_true_iff in Hd as [Hc _].
    cbn [append prefix].
    destruct (ascii_dec "I" c) as [<-|]; [discriminate|reflexivity]. }
  rewrite (span_digits d u Hd Hu).
  assert (match u with
          | EmptyString => (EmptyString, u)
          | String c r =>
              if (c =? ".")%char then span isDigit r else (EmptyString, u)
          end = (EmptyString, u)) as ->.
  { destruct u as [|c r]; [reflexivity|].
    cbn [continuesNumber] in Hu.
    apply orb_false_iff in Hu as [Hu _].
    apply orb_false_iff in Hu as [Hu _].
    apply orb_false_iff in Hu as [_ Hu].
    now rewrite Hu. }
  assert (scanExponent u = 0%Z) as ->.
  { destruct u as [|c r]; [reflexivity|].
    cbn [continuesNumber] in Hu.
    apply orb_false_iff in Hu as [Hu HE].
    apply orb_false_iff in Hu as [_ He].
    cbn [scanExponent]; now rewrite He, HE. }
  destruct d as [|c d]; [discriminate|].
  cbn [String.eqb andb String.length Z.of_nat Z.sub Z.opp Z.add].
  now rewrite append_empty.
Qed.

(** X3.  For every whole number n from 1 to 300 and every text u that
    does not begin with a digit, a point, "e" or "E", the string made of
    a minus sign, n and u normalizes to "[-4npx]": whatever follows a
    negative whole number is dropped and the number is multiplied
    by 4. *)
Theorem negative_number_discards_unit :
  forall n u,
    1 <= n <= 300 ->
    continuesNumber u = false ->
    normalizeSpacing (Some (Str ("-" ++ decimal n ++ u))) =
    "[-" ++ decimal (4 * n) ++ "px]".
Proof.
  intros n u Hn Hu.
  change ("-" ++ decimal n ++ u) with (String "-" (decimal n ++ u)).
  cbn [normalizeSpacing].
  assert (forall r, (String "-" r =? "auto") = false) as -> by reflexivity.
  assert (forall r, startsWith (String "-" r) "-" = true) as ->
    by (intros r; now destruct r).
  rewrite (parseFloat_minus_digits (decimal n) u
             (PrintFacts.digitsOf_digits _) (PrintFacts.digitsOf_truthy _)
             Hu).
  rewrite JsNumberFacts.ofDecimal_not_nan; cbn [negb andb].
  assert (forallb
            (fun n =>
               normalizeNumber (ofDecimal true (digitsValue 10 (decimal n)) 0)
               =? "[-" ++ decimal (4 * n) ++ "px]")
            (seq 1 300) = true) as Hall by (vm_compute; reflexivity).
  rewrite forallb_forall in Hall.
  apply String.eqb_eq, Hall, in_seq; lia.
Qed.

(** Minus four pixels. *)
Lemma negative_number_discards_unit_witness :
  1 <= 4 <= 300
  /\ continuesNumber "px" = false
  /\ normalizeSpacing (Some (Str "-4px")) = "[-16px]".
Proof.
  assert (1 <= 4 <= 300) as H by lia.
  split; [exact H|]; split; [reflexivity|].
  exact (negative_number_discards_unit 4 "px" H eq_refl).
Defined.
